(** * Website monitoring and alerts

    A shallow embedding of [examples/03_monitoring_alerts.py]: the change
    detector [detect_changes], the status rule and the alert rule of
    [monitor_products], the result log ([save_result],
    [load_previous_state]) and the summary of [generate_report].

    Conventions of the embedding.
    - A Python [float] is an exact rational ([Q]); [!=] on floats is
      [Qeq_bool], [diff > 0] is a comparison in [Q].  Binary rounding of
      float arithmetic and the special values (nan, inf) are not
      represented.
    - The JSON file is represented by the list of objects it holds,
      [None] when the file does not exist; [json.dump] followed by
      [json.load] is the identity on that list.
    - What the browser returns ([check_product_page]) and the clock
      ([datetime.now]) are inputs of the model.
    - Console output is not represented, apart from the alerts raised by
      [send_alert], which are collected in the state, and the reports
      printed by [scheduled_monitoring], which are collected together with
      its calls of [time.sleep]. *)

From Stdlib Require Import QArith Qabs.
From stdpp Require Import gmap strings list fin_maps pretty.

(** ** Formatting *)

(** [s * n] on Python strings. *)
Fixpoint str_mul (s : string) (n : nat) : string :=
  match n with
  | O => ""
  | S k => s +:+ str_mul s k
  end.

Definition nl : string := String (Ascii.ascii_of_nat 10) EmptyString.

(** Nearest integer, ties to the even one (the rounding of [format]). *)
Definition round_half_even (q : Q) : Z :=
  let n := Qnum q in
  let d := Z.pos (Qden q) in
  let f := (n / d)%Z in
  let r2 := (2 * (n mod d))%Z in
  if (r2 <? d)%Z then f
  else if (d <? r2)%Z then (f + 1)%Z
  else if Z.even f then f else (f + 1)%Z.

Definition two_digits (n : N) : string :=
  if (n <? 10)%N then "0" +:+ pretty n else pretty n.

(** [f"{q:.2f}"]: the sign, the integer part, a point and two decimals. *)
Definition format_2f (q : Q) : string :=
  let c := Z.to_N (round_half_even (Qabs q * 100)) in
  (if Qle_bool 0 q then "" else "-")
  +:+ pretty (c / 100)%N +:+ "." +:+ two_digits (c mod 100)%N.

(** ** Data model *)

(** [class ProductMonitor(BaseModel)] *)
Record ProductMonitor := {
  name : string;
  price : Q;
  in_stock : bool;
  last_checked : string
}.

(** The [data] object of a stored result: what [ProductMonitor.model_dump]
    wrote, or the empty object of an error result.  A key that is absent is
    [None], which is also what [dict.get] returns for it. *)
Record data_dict := {
  d_name : option string;
  d_price : option Q;
  d_in_stock : option bool;
  d_last_checked : option string
}.

Definition empty_data : data_dict :=
  {| d_name := None; d_price := None; d_in_stock := None;
     d_last_checked := None |}.

(** [ProductMonitor.model_dump()] *)
Definition product_dump (p : ProductMonitor) : data_dict :=
  {| d_name := Some (name p); d_price := Some (price p);
     d_in_stock := Some (in_stock p);
     d_last_checked := Some (last_checked p) |}.

(** [class MonitoringResult(BaseModel)] *)
Record MonitoringResult := {
  timestamp : string;
  url : string;
  status : string;
  data : data_dict;
  changes : option (list string);
  error_message : option string
}.

(** A result as a JSON object of the log.  [r_url], [r_status] and
    [r_timestamp] are read with [r['...']]; [data] and [changes] are read
    with ['data' in r] and [r.get('changes')], so they may be absent. *)
Record result_dict := {
  r_timestamp : string;
  r_url : string;
  r_status : string;
  r_data : option data_dict;
  r_changes : option (list string);
  r_error_message : option string
}.

(** [MonitoringResult.model_dump()] *)
Definition model_dump (m : MonitoringResult) : result_dict :=
  {| r_timestamp := timestamp m; r_url := url m; r_status := status m;
     r_data := Some (data m); r_changes := changes m;
     r_error_message := error_message m |}.

(** ** Change detection *)

Definition first_time : string := "First time monitoring this product".

(** [x != y] where [x] comes from [dict.get] and [y] is a value of the
    current product: an absent key gives [None], which differs from every
    value. *)
Definition ne_price (old : option Q) (new : Q) : bool :=
  match old with
  | Some p => negb (Qeq_bool p new)
  | None => true
  end.

Definition ne_stock (old : option bool) (new : bool) : bool :=
  match old with
  | Some b => negb (Bool.eqb b new)
  | None => true
  end.

Definition ne_name (old : option string) (new : string) : bool :=
  match old with
  | Some s => negb (String.eqb s new)
  | None => true
  end.

(** [str(prev_data.get('name'))] inside the f-string. *)
Definition str_opt (o : option string) : string :=
  match o with
  | Some s => s
  | None => "None"
  end.

Definition price_change (old : option Q) (new : Q) : string :=
  let old_price := default 0%Q old in
  let diff := (new - old_price)%Q in
  let direction := if negb (Qle_bool diff 0) then "increased" else "decreased" in
  "Price " +:+ direction +:+ " from $" +:+ format_2f old_price
  +:+ " to $" +:+ format_2f new +:+ " ($" +:+ format_2f (Qabs diff) +:+ ")".

Definition stock_change (new : bool) : string :=
  "Stock status changed to: " +:+ (if new then "IN STOCK" else "OUT OF STOCK").

Definition name_change (old : option string) (new : string) : string :=
  "Product name changed from '" +:+ str_opt old +:+ "' to '" +:+ new +:+ "'".

(** The body of [detect_changes] once a previous [data] object is at hand:
    price, stock and name are compared in this order. *)
Definition field_changes (current : ProductMonitor) (prev_data : data_dict)
    : list string :=
  (if ne_price (d_price prev_data) (price current)
   then [price_change (d_price prev_data) (price current)] else [])
  ++ (if ne_stock (d_in_stock prev_data) (in_stock current)
      then [stock_change (in_stock current)] else [])
  ++ (if ne_name (d_name prev_data) (name current)
      then [name_change (d_name prev_data) (name current)] else []).

(** [detect_changes(url, current, previous)] *)
Definition detect_changes (u : string) (current : ProductMonitor)
    (previous : option result_dict) : list string :=
  match previous with
  | None => [first_time]
  | Some prev =>
      match r_data prev with
      | None => [first_time]
      | Some prev_data => field_changes current prev_data
      end
  end.

(** ** The result log *)

(** [xs[-n:]] and [xs[:n]] on Python lists. *)
Definition py_tail {A} (n : nat) (xs : list A) : list A :=
  drop (length xs - n) xs.

Definition py_head {A} (n : nat) (xs : list A) : list A := take n xs.

(** [{r['url']: r for r in rs}]: a later record replaces an earlier one. *)
Definition dict_by_url (rs : list result_dict) : gmap string result_dict :=
  foldl (λ m r, <[r_url r := r]> m) ∅ rs.

(** [load_previous_state()], on the content of the results file. *)
Definition load_previous_state (file : option (list result_dict))
    : gmap string result_dict :=
  match file with
  | Some rs => dict_by_url (py_tail 10 rs)
  | None => ∅
  end.

(** What [json.load] gives in [save_result] and [generate_report]. *)
Definition load_all (file : option (list result_dict)) : list result_dict :=
  default [] file.

(** [save_result(result)]: the new content of the results file. *)
Definition save_result (file : option (list result_dict))
    (result : MonitoringResult) : option (list result_dict) :=
  Some (load_all file ++ [model_dump result]).

(** ** Monitoring *)

(** One call of [send_alert]. *)
Record alert := {
  a_changes : list string;
  a_product : ProductMonitor;
  a_url : string
}.

(** The monitor object together with the file it writes. *)
Record monitor_state := {
  results_file : option (list result_dict);
  previous_state : gmap string result_dict;
  alerts : list alert
}.

(** [WebsiteMonitor()] *)
Definition new_monitor (file : option (list result_dict)) : monitor_state :=
  {| results_file := file;
     previous_state := load_previous_state file;
     alerts := [] |}.

(** What [check_product_page] returned for a URL: a product stamped with
    the time of the check, or [None]; for [None] the model records the
    clock reading used for the error result. *)
Inductive outcome :=
  | Fetched (current : ProductMonitor)
  | Failed (now : string).

(** Truth value of a Python list. *)
Definition truthy {A} (xs : list A) : bool :=
  match xs with
  | [] => false
  | _ :: _ => true
  end.

(** ['changed' if changes and len(changes) > 1 else 'success'] *)
Definition status_of (chs : list string) : string :=
  if truthy chs && (1 <? length chs) then "changed" else "success".

(** [if len(changes) > 1: self.send_alert(...)] *)
Definition send_alert (chs : list string) (product : ProductMonitor)
    (u : string) (sent : list alert) : list alert :=
  sent ++ [{| a_changes := chs; a_product := product; a_url := u |}].

Definition success_result (u : string) (current : ProductMonitor)
    (chs : list string) : MonitoringResult :=
  {| timestamp := last_checked current;
     url := u;
     status := status_of chs;
     data := product_dump current;
     changes := if truthy chs then Some chs else None;
     error_message := None |}.

Definition error_result (u : string) (now : string) : MonitoringResult :=
  {| timestamp := now;
     url := u;
     status := "error";
     data := empty_data;
     changes := None;
     error_message := Some "Failed to extract product data" |}.

(** One iteration of the loop of [monitor_products]. *)
Definition check_url (st : monitor_state) (u : string) (o : outcome)
    : monitor_state :=
  match o with
  | Fetched current =>
      let previous := previous_state st !! u in
      let chs := detect_changes u current previous in
      let result := success_result u current chs in
      {| results_file := save_result (results_file st) result;
         previous_state := <[u := model_dump result]> (previous_state st);
         alerts := if 1 <? length chs
                   then send_alert chs current u (alerts st)
                   else alerts st |}
  | Failed now =>
      {| results_file := save_result (results_file st) (error_result u now);
         previous_state := previous_state st;
         alerts := alerts st |}
  end.

(** [monitor_products(urls)], each URL paired with what its check gave. *)
Definition monitor_products (st : monitor_state)
    (checks : list (string * outcome)) : monitor_state :=
  foldl (λ s c, check_url s c.1 c.2) st checks.

(** ** Report *)

Definition has_changes (r : result_dict) : bool :=
  match r_changes r with
  | Some (_ :: _) => true
  | _ => false
  end.

(** [sum(1 for r in results if r['status'] == s)] *)
Definition count_status (s : string) (results : list result_dict) : nat :=
  length (List.filter (λ r, String.eqb (r_status r) s) results).

(** [set(r['url'] for r in results)] *)
Definition url_set (results : list result_dict) : gset string :=
  list_to_set (r_url <$> results).

(** [[r for r in results[-20:] if r.get('changes')]] *)
Definition recent_changes (results : list result_dict) : list result_dict :=
  List.filter has_changes (py_tail 20 results).

(** The results listed in the report, each with the changes printed. *)
Definition shown_changes (results : list result_dict)
    : list (result_dict * list string) :=
  (λ r, (r, py_head 3 (default [] (r_changes r))))
    <$> py_tail 5 (recent_changes results).

Definition entry_lines (e : result_dict * list string) : list string :=
  [nl +:+ "  " +:+ r_timestamp e.1; "  URL: " +:+ r_url e.1]
  ++ ((λ c, "    • " +:+ c) <$> e.2).

Definition report_lines (results : list result_dict) : list string :=
  [str_mul "=" 60; "MONITORING REPORT"; str_mul "=" 60;
   "Total checks: " +:+ pretty (length results);
   "Products monitored: " +:+ pretty (size (url_set results));
   nl +:+ "Status breakdown:";
   "  ✓ Successful checks: " +:+ pretty (count_status "success" results);
   "  🔔 Changes detected: " +:+ pretty (count_status "changed" results);
   "  ✗ Errors: " +:+ pretty (count_status "error" results)]
  ++ (if truthy (recent_changes results)
      then (nl +:+ "Recent changes ("
            +:+ pretty (length (recent_changes results)) +:+ "):")
           :: concat (entry_lines <$> shown_changes results)
      else [])
  ++ [nl +:+ str_mul "=" 60].

(** [generate_report()] *)
Definition generate_report (file : option (list result_dict)) : string :=
  match file with
  | None => "No monitoring data available"
  | Some results => String.concat nl (report_lines results)
  end.

(** ** Specification vocabulary *)

(** The latest result of a target in a sequence of results, by position. *)
Definition latest_for (u : string) (rs : list result_dict)
    : option result_dict :=
  last (List.filter (λ r, String.eqb (r_url r) u) rs).

(** The window at its nominal size: the ten most recent results. *)
Definition retained (file : option (list result_dict)) : list result_dict :=
  py_tail 10 (load_all file).

(** The window invariant as the data model words it: an entry of the
    window is the latest result of its target among the retained results. *)
Definition window_is_latest (st : monitor_state) : Prop :=
  ∀ u r, previous_state st !! u = Some r →
         latest_for u (retained (results_file st)) = Some r.

(** Results of checks that extracted a product. *)
Definition is_observation (r : result_dict) : bool :=
  negb (String.eqb (r_status r) "error").

(** The listing of the report as the report generator is described: the
    last five results with a change, each cut to three changes, taken from
    the sequence [rs]. *)
Definition listing_of (rs : list result_dict)
    : list (result_dict * list string) :=
  (λ r, (r, take 3 (default [] (r_changes r))))
    <$> py_tail 5 (List.filter has_changes rs).

(** What one check must leave in the log. *)
Definition recorded (c : string * outcome) (r : result_dict) : Prop :=
  r_url r = c.1 ∧
  match c.2 with
  | Fetched current =>
      (r_status r = "success" ∨ r_status r = "changed")
      ∧ r_timestamp r = last_checked current
      ∧ r_data r = Some (product_dump current)
      ∧ r_error_message r = None
  | Failed now =>
      r_status r = "error"
      ∧ r_timestamp r = now
      ∧ r_data r = Some empty_data
      ∧ r_changes r = None
      ∧ r_error_message r = Some "Failed to extract product data"
  end.



(** ** Sample runs *)

Definition product_a10 : ProductMonitor :=
  {| name := "X"; price := 10; in_stock := true; last_checked := "t1" |}.

Definition product_a8 : ProductMonitor :=
  {| name := "X"; price := 8; in_stock := true; last_checked := "t3" |}.

(** Tick 1: A is observed, B fails.  Tick 2: A is observed again. *)
Definition after_tick1 : monitor_state :=
  monitor_products (new_monitor None)
    [("A", Fetched product_a10); ("B", Failed "t2")].

Definition after_tick2 : monitor_state :=
  monitor_products after_tick1 [("A", Fetched product_a8)].

(** A is observed, then a later check of A fails. *)
Definition after_failure : monitor_state :=
  monitor_products (new_monitor None)
    [("A", Fetched product_a10); ("A", Failed "t2")].

Definition stored (u : string) (d : data_dict) : result_dict :=
  {| r_timestamp := "t0"; r_url := u; r_status := "success";
     r_data := Some d; r_changes := None; r_error_message := None |}.

Definition product_2499 : ProductMonitor :=
  {| name := "Lamp"; price := 2499 # 100; in_stock := true;
     last_checked := "t1" |}.

Definition data_2999 : data_dict :=
  {| d_name := Some "Lamp"; d_price := Some (2999 # 100);
     d_in_stock := Some true; d_last_checked := Some "t0" |}.

(** A stored object whose [price] key is missing. *)
Definition data_no_price : data_dict :=
  {| d_name := Some "X"; d_price := None; d_in_stock := Some true;
     d_last_checked := Some "t0" |}.

(** One result with a change followed by twenty error results. *)
Definition old_change : result_dict :=
  {| r_timestamp := "t0"; r_url := "A"; r_status := "changed";
     r_data := Some (product_dump product_a8);
     r_changes := Some ["Stock status changed to: IN STOCK";
                        "Product name changed from 'W' to 'X'"];
     r_error_message := None |}.

Definition long_log : list result_dict :=
  old_change :: replicate 20 (model_dump (error_result "A" "t1")).

(** ** Checking a page *)

(** What the browser session of [check_product_page] does: [NovaAct] or
    one of the two [act] calls raises [ActError], or the calls return with
    [matches_schema] and [parsed_response]. *)
Inductive extraction :=
  | ExtractRaises
  | Extracted (matches_schema : bool) (parsed_response : ProductMonitor).

Inductive session :=
  | StartRaises
  | ProbeRaises
  | Probed (matches_schema : bool) (parsed_response : bool) (next : extraction).

(** [check_product_page(url, product_name)], [now] being the clock reading
    taken for [last_checked]. *)
Definition check_product_page (s : session) (now : string)
    : option ProductMonitor :=
  match s with
  | StartRaises => None
  | ProbeRaises => None
  | Probed matches parsed next =>
      if matches && parsed then None
      else
        match next with
        | ExtractRaises => None
        | Extracted true product =>
            Some {| name := name product; price := price product;
                    in_stock := in_stock product; last_checked := now |}
        | Extracted false _ => None
        end
  end.

(** [current = self.check_product_page(...)] followed by [if current:] in
    [monitor_products]; [now_error] is the clock reading of the error
    branch. *)
Definition observe (s : session) (now_check now_error : string) : outcome :=
  match check_product_page s now_check with
  | Some current => Fetched current
  | None => Failed now_error
  end.

(** ** Scheduled monitoring *)

(** What [scheduled_monitoring] does besides monitoring: it prints reports
    and sleeps. *)
Inductive output :=
  | Report (text : string)
  | Sleep (seconds : Z).

Record schedule_state := {
  monitor : monitor_state;
  printed : list output
}.

(** How the loop of [scheduled_monitoring] ends: normally, or with the
    [ValueError] that [time.sleep] raises on a negative duration. *)
Inductive ending :=
  | Completed (s : schedule_state)
  | Raised (s : schedule_state).

(** The checks of one run: every URL of the list, in order, with what its
    check gives in this run. *)
Definition checks_for (urls : list string) (feed : nat → outcome)
    : list (string * outcome) :=
  imap (λ i u, (u, feed i)) urls.

Definition print_report (m : monitor_state) (out : list output) : list output :=
  out ++ [Report (nl +:+ generate_report (results_file m))].

(** One iteration of [for run in range(max_runs)]. *)
Definition scheduled_run (urls : list string) (interval_minutes max_runs : Z)
    (feed : nat → nat → outcome) (s : schedule_state) (run : nat) : ending :=
  let m := monitor_products (monitor s) (checks_for urls (feed run)) in
  let out := if (run + 1) mod 6 =? 0 then print_report m (printed s)
             else printed s in
  if (Z.of_nat run <? max_runs - 1)%Z then
    let wait_seconds := (interval_minutes * 60)%Z in
    if (wait_seconds <? 0)%Z
    then Raised {| monitor := m; printed := out |}
    else Completed {| monitor := m; printed := out ++ [Sleep wait_seconds] |}
  else Completed {| monitor := m; printed := out |}.

(** The iterations [run], [run + 1], ..., [run + n - 1]. *)
Fixpoint scheduled_loop (urls : list string) (interval_minutes max_runs : Z)
    (feed : nat → nat → outcome) (n run : nat) (s : schedule_state) : ending :=
  match n with
  | O => Completed s
  | S n' =>
      match scheduled_run urls interval_minutes max_runs feed s run with
      | Completed s' =>
          scheduled_loop urls interval_minutes max_runs feed n' (S run) s'
      | Raised s' => Raised s'
      end
  end.

(** [scheduled_monitoring(urls, interval_minutes, max_runs)] *)
Definition scheduled_monitoring (file : option (list result_dict))
    (urls : list string) (interval_minutes max_runs : Z)
    (feed : nat → nat → outcome) : ending :=
  match scheduled_loop urls interval_minutes max_runs feed
          (Z.to_nat max_runs) 0
          {| monitor := new_monitor file; printed := [] |} with
  | Completed s =>
      Completed {| monitor := monitor s;
                   printed := print_report (monitor s) (printed s) |}
  | Raised s => Raised s
  end.

Definition is_report (o : output) : bool :=
  match o with
  | Report _ => true
  | Sleep _ => false
  end.

Definition is_sleep (o : output) : bool := negb (is_report o).

(** ** Further vocabulary *)

Definition is_fetched (c : string * outcome) : bool :=
  match c.2 with
  | Fetched _ => true
  | Failed _ => false
  end.

(** The number of canonical fields in which the previous data differs
    from the current product. *)
Definition differing (current : ProductMonitor) (prev_data : data_dict) : nat :=
  Nat.b2n (ne_price (d_price prev_data) (price current))
  + Nat.b2n (ne_stock (d_in_stock prev_data) (in_stock current))
  + Nat.b2n (ne_name (d_name prev_data) (name current)).

(** The statuses that [monitor_products] writes. *)
Definition known_status (r : result_dict) : Prop :=
  r_status r = "success" ∨ r_status r = "changed" ∨ r_status r = "error".

(** What an alert sent for the result [r] of the URL [u] looks like. *)
Definition alert_for (u : string) (r : result_dict) (a : alert) : Prop :=
  a_url a = u
  ∧ r_changes r = Some (a_changes a)
  ∧ r_data r = Some (product_dump (a_product a))
  ∧ 2 ≤ length (a_changes a) ≤ 3
  ∧ first_time ∉ a_changes a.

(** A log in which the only result of A is followed by ten results of B. *)
Definition crowded_log : list result_dict :=
  model_dump (success_result "A" product_a10 [first_time])
  :: replicate 10 (model_dump (error_result "B" "t2")).


Definition session_ok : session :=
  Probed true false (Extracted true product_a10).

(** * Properties *)

(** ** Formatting *)

Example format_examples :
  format_2f (2999 # 100) = "29.99" ∧ format_2f 8 = "8.00" ∧
  format_2f (-1 # 1000) = "-0.00" ∧ format_2f (1 # 8) = "0.12" ∧
  format_2f (3 # 8) = "0.38" ∧ format_2f (1005 # 10) = "100.50".
Proof. vm_compute. done. Qed.

(** The rounding is to a nearest integer. *)
Lemma round_half_even_close q :
  (Qabs (inject_Z (round_half_even q) - q) <= 1 # 2)%Q.
Proof.
  destruct q as [n d]. unfold round_half_even. cbn [Qnum Qden].
  pose proof (Z.div_mod n (Z.pos d) ltac:(lia)) as Hdm.
  pose proof (Z.mod_pos_bound n (Z.pos d) ltac:(lia)) as Hb.
  set (f := (n / Z.pos d)%Z) in *. set (r := (n mod Z.pos d)%Z) in *.
  apply Qabs_Qle_condition.
  destruct (Z.ltb_spec (2 * r) (Z.pos d));
    [| destruct (Z.ltb_spec (Z.pos d) (2 * r)); [| destruct (Z.even f)]];
    unfold Qle, Qminus, Qplus, Qopp, inject_Z; cbn [Qnum Qden];
    split; nia.
Qed.

(** The decimals of [format_2f] are two characters. *)
Lemma two_digits_length n : (n < 100)%N → String.length (two_digits n) = 2.
Proof.
  intros Hn.
  assert (Forall (λ k, String.length (two_digits (N.of_nat k)) = 2)
            (seq 0 100)) as Hall
    by (apply (bool_decide_unpack _); vm_compute; exact I).
  rewrite Forall_forall in Hall.
  rewrite <- (N2Nat.id n). apply Hall, elem_of_seq. lia.
Qed.

(** ** Descriptors and the first-time entry *)

Lemma first_time_not_price old new : first_time ≠ price_change old new.
Proof. unfold first_time, price_change. cbn. discriminate. Qed.

Lemma first_time_not_stock new : first_time ≠ stock_change new.
Proof. unfold first_time, stock_change. cbn. discriminate. Qed.

Lemma first_time_not_name old new : first_time ≠ name_change old new.
Proof. unfold first_time, name_change. cbn. discriminate. Qed.

Lemma field_changes_sublist current prev_data :
  field_changes current prev_data `sublist_of`
    [price_change (d_price prev_data) (price current);
     stock_change (in_stock current);
     name_change (d_name prev_data) (name current)].
Proof.
  unfold field_changes.
  destruct (ne_price _ _), (ne_stock _ _), (ne_name _ _); cbn;
    repeat first [ apply sublist_nil | apply sublist_skip; [] | apply sublist_cons ].
Qed.

Lemma field_changes_no_first_time current prev_data :
  first_time ∉ field_changes current prev_data.
Proof.
  intros Hin.
  eapply elem_of_sublist in Hin; [| apply field_changes_sublist ].
  repeat (apply elem_of_cons in Hin as [Hin | Hin]).
  - by apply first_time_not_price in Hin.
  - by apply first_time_not_stock in Hin.
  - by apply first_time_not_name in Hin.
  - by apply elem_of_nil in Hin.
Qed.

(** [status_of] counts entries: anything shorter than two is a success. *)
Lemma status_of_short chs : length chs ≤ 1 → status_of chs = "success".
Proof.
  intros Hlen. unfold status_of.
  destruct chs as [| c [| c' chs]]; cbn in *; try done. lia.
Qed.

Lemma status_of_long chs : 2 ≤ length chs → status_of chs = "changed".
Proof.
  intros Hlen. unfold status_of.
  destruct chs as [| c [| c' chs]]; cbn in *; try lia. done.
Qed.

(** ** Change detection *)

Lemma detect_changes_field_changes u current prev prev_data :
  r_data prev = Some prev_data →
  detect_changes u current (Some prev) = field_changes current prev_data.
Proof. intros Hd. unfold detect_changes. by rewrite Hd. Qed.




(** C10. The list returned by [detect_changes] is either exactly the
    first-time entry, or it holds no first-time entry, has at most three
    entries, and is made of the price, stock and name descriptors, each at
    most once and in this order. *)
Theorem detect_changes_sentinel_exclusive u current previous :
  detect_changes u current previous = [first_time]
  ∨ ((first_time ∉ detect_changes u current previous)
     ∧ length (detect_changes u current previous) ≤ 3
     ∧ ∃ prev_data,
         detect_changes u current previous `sublist_of`
           [price_change (d_price prev_data) (price current);
            stock_change (in_stock current);
            name_change (d_name prev_data) (name current)]).
Proof.
  unfold detect_changes.
  destruct previous as [prev |]; [| by left].
  destruct (r_data prev) as [prev_data |]; [| by left].
  right. split; [apply field_changes_no_first_time |].
  pose proof (field_changes_sublist current prev_data) as Hsub.
  split; [| by exists prev_data].
  apply sublist_length in Hsub. cbn in Hsub. lia.
Qed.







(** C5, counterexample.  The stored data lacks the [price] key while stock
    and name agree with the current product: [detect_changes] still reports
    a price change, computed against 0. *)
Lemma absent_price_is_reported :
  d_price data_no_price = None
  ∧ d_in_stock data_no_price = Some (in_stock product_a10)
  ∧ d_name data_no_price = Some (name product_a10)
  ∧ detect_changes "A" product_a10 (Some (stored "A" data_no_price))
    = ["Price increased from $0.00 to $10.00 ($10.00)"].
Proof. vm_compute. done. Qed.

(** C5, amended.  [detect_changes] reads only price, stock and name: two
    calls whose previous data and current product agree on these fields
    return the same list.  When the previous data holds all three with the
    values of the current product the list is empty and the status is
    ['success'].  A field that is missing from the previous data counts as
    different: its descriptor is part of the list, and a missing price is
    reported as a change from 0. *)
Theorem detect_changes_canonical_fields u current prev prev_data :
  r_data prev = Some prev_data →
  ((∃ p, d_price prev_data = Some p ∧ (p == price current)%Q)
   → d_in_stock prev_data = Some (in_stock current)
   → d_name prev_data = Some (name current)
   → detect_changes u current (Some prev) = []
     ∧ status_of (detect_changes u current (Some prev)) = "success")
  ∧ (∀ u' current' prev' prev_data',
       r_data prev' = Some prev_data' →
       d_price prev_data' = d_price prev_data →
       d_in_stock prev_data' = d_in_stock prev_data →
       d_name prev_data' = d_name prev_data →
       price current' = price current →
       in_stock current' = in_stock current →
       name current' = name current →
       detect_changes u' current' (Some prev')
       = detect_changes u current (Some prev))
  ∧ (d_price prev_data = None →
     price_change None (price current) ∈ detect_changes u current (Some prev)
     ∧ price_change None (price current)
       = price_change (Some 0%Q) (price current))
  ∧ (d_in_stock prev_data = None →
     stock_change (in_stock current) ∈ detect_changes u current (Some prev))
  ∧ (d_name prev_data = None →
     name_change None (name current) ∈ detect_changes u current (Some prev)).
Proof.
  intros Hd.
  rewrite (detect_changes_field_changes _ _ _ _ Hd).
  unfold field_changes.
  split; [| split; [| split; [| split]]].
  - intros (p & Hp & Heq) Hs Hn. rewrite Hp, Hs, Hn. cbn.
    rewrite (Qeq_eq_bool _ _ Heq), Bool.eqb_reflx, String.eqb_refl. done.
  - intros u' current' prev' prev_data' Hd' Hp Hs Hn Hcp Hcs Hcn.
    rewrite (detect_changes_field_changes _ _ _ _ Hd').
    unfold field_changes. by rewrite Hp, Hs, Hn, Hcp, Hcs, Hcn.
  - intros ->. cbn. split; [| done]. apply elem_of_cons. by left.
  - intros ->. cbn. apply elem_of_app. right. apply elem_of_cons. by left.
  - intros ->. cbn. apply elem_of_app. right. apply elem_of_app. right.
    apply elem_of_cons. by left.
Qed.

Lemma detect_changes_canonical_fields_witness :
  r_data (stored "A" data_no_price) = Some data_no_price
  ∧ price_change None (price product_a10)
    ∈ detect_changes "A" product_a10 (Some (stored "A" data_no_price)).
Proof.
  split; [reflexivity |].
  destruct (detect_changes_canonical_fields "A" product_a10
              (stored "A" data_no_price) data_no_price)
    as (_ & _ & Hp & _); [reflexivity |].
  apply Hp. reflexivity.
Defined.

(** ** Status and alert *)

(** C1, the code at the scenario of the specification.  After tick 1 the
    window holds A at price 10; at tick 2 A is observed at price 8 and
    [detect_changes] returns the single price descriptor.  The status rule
    and the alert rule both test [len(changes) > 1], so the result is
    stored as ['success'] and no alert is sent; the same holds whenever
    [detect_changes] returns a list of one entry. *)
Theorem single_change_is_not_alerted :
  detect_changes "A" product_a8 (previous_state after_tick1 !! "A")
  = ["Price decreased from $10.00 to $8.00 ($2.00)"]
  ∧ r_status <$> load_all (results_file after_tick2)
    = ["success"; "error"; "success"]
  ∧ alerts after_tick2 = []
  ∧ ∀ st u current c,
      detect_changes u current (previous_state st !! u) = [c] →
      alerts (check_url st u (Fetched current)) = alerts st
      ∧ r_status <$> last (load_all (results_file
                                     (check_url st u (Fetched current))))
        = Some "success".
Proof.
  split; [by vm_compute |]. split; [by vm_compute |].
  split; [by vm_compute |].
  intros st u current c Hone. cbn. rewrite Hone. cbn.
  split; [done |]. by rewrite last_snoc.
Qed.

(** ** The result log *)

Lemma save_result_load file result :
  load_all (save_result file result) = load_all file ++ [model_dump result].
Proof. reflexivity. Qed.


Lemma py_tail_length {A} n (xs : list A) : length (py_tail n xs) ≤ n.
Proof. unfold py_tail. rewrite length_drop. lia. Qed.

Lemma py_tail_short {A} n (xs : list A) : length xs ≤ n → py_tail n xs = xs.
Proof.
  intros Hlen. unfold py_tail.
  replace (length xs - n) with 0 by lia. apply drop_0.
Qed.

Lemma py_tail_suffix {A} n (xs : list A) : py_tail n xs `suffix_of` xs.
Proof. apply suffix_drop. Qed.

Lemma dict_by_url_snoc rs r :
  dict_by_url (rs ++ [r]) = <[r_url r := r]> (dict_by_url rs).
Proof. unfold dict_by_url. by rewrite foldl_snoc. Qed.

Lemma latest_for_snoc u rs r :
  latest_for u (rs ++ [r])
  = if String.eqb (r_url r) u then Some r else latest_for u rs.
Proof.
  unfold latest_for. rewrite List.filter_app. cbn [List.filter].
  destruct (String.eqb (r_url r) u).
  - apply last_snoc.
  - by rewrite app_nil_r.
Qed.

(** The dictionary comprehension keeps, for each URL, the latest record. *)
Lemma dict_by_url_lookup rs u : dict_by_url rs !! u = latest_for u rs.
Proof.
  induction rs as [| r rs IH] using rev_ind; [done |].
  rewrite dict_by_url_snoc, latest_for_snoc.
  destruct (String.eqb_spec (r_url r) u) as [-> | Hne].
  - apply lookup_insert_eq.
  - by rewrite lookup_insert_ne.
Qed.

Lemma dict_by_url_dom rs : dom (dict_by_url rs) = url_set rs.
Proof.
  unfold url_set.
  induction rs as [| r rs IH] using rev_ind; [apply dom_empty_L |].
  rewrite dict_by_url_snoc, dom_insert_L, IH, fmap_app, list_to_set_app_L.
  rewrite (comm_L (∪)). f_equal. cbn. by rewrite (right_id_L ∅ (∪)).
Qed.

Lemma dict_by_url_size rs : size (dict_by_url rs) ≤ length rs.
Proof.
  induction rs as [| r rs IH] using rev_ind; [done |].
  rewrite dict_by_url_snoc, length_app, map_size_insert. cbn.
  destruct (dict_by_url rs !! r_url r); unfold id; lia.
Qed.

Lemma url_set_py_tail n rs : url_set (py_tail n rs) ⊆ url_set rs.
Proof.
  unfold url_set, py_tail. intros u.
  rewrite !elem_of_list_to_set, fmap_drop.
  apply subseteq_drop.
Qed.

(** C8. [load_previous_state] builds its mapping from the last ten records
    of the log only; for each URL it holds the latest of those records; it
    never has more entries than ten, nor more than there are distinct URLs
    in the log. *)
Theorem load_previous_state_window rs :
  (∀ u, load_previous_state (Some rs) !! u = latest_for u (py_tail 10 rs))
  ∧ py_tail 10 rs `suffix_of` rs
  ∧ length (py_tail 10 rs) = 10 `min` length rs
  ∧ size (load_previous_state (Some rs)) ≤ 10 `min` size (url_set rs).
Proof.
  unfold load_previous_state.
  split; [intros u; apply dict_by_url_lookup |].
  split; [apply py_tail_suffix |].
  split; [unfold py_tail; rewrite length_drop; lia |].
  apply Nat.min_glb.
  - etrans; [apply dict_by_url_size | apply py_tail_length].
  - rewrite <- size_dom, dict_by_url_dom.
    apply subseteq_size, url_set_py_tail.
Qed.

(** ** Monitoring *)

Lemma status_of_cases chs : status_of chs = "success" ∨ status_of chs = "changed".
Proof. unfold status_of. destruct (_ && _); auto. Qed.

Lemma monitor_products_snoc st checks c :
  monitor_products st (checks ++ [c])
  = check_url (monitor_products st checks) c.1 c.2.
Proof. unfold monitor_products. by rewrite foldl_snoc. Qed.

(** One check appends one result; the window takes it when a product was
    extracted and is left alone otherwise. *)
Lemma check_url_step st u o :
  ∃ r, load_all (results_file (check_url st u o))
       = load_all (results_file st) ++ [r]
     ∧ recorded (u, o) r
     ∧ previous_state (check_url st u o)
       = if is_observation r then <[u := r]> (previous_state st)
         else previous_state st.
Proof.
  destruct o as [current | now]; cbn [check_url].
  - eexists. split; [reflexivity |].
    set (chs := detect_changes u current (previous_state st !! u)).
    split.
    + split; [reflexivity |]. cbn. split; [apply status_of_cases | done].
    + unfold is_observation. cbn.
      by destruct (status_of_cases chs) as [-> | ->].
  - eexists. split; [reflexivity |]. split; [| reflexivity].
    split; [reflexivity |]. cbn. done.
Qed.

Lemma latest_observation_snoc u rs r :
  latest_for u (List.filter is_observation (rs ++ [r]))
  = if is_observation r && String.eqb (r_url r) u then Some r
    else latest_for u (List.filter is_observation rs).
Proof.
  rewrite List.filter_app. cbn [List.filter].
  destruct (is_observation r); cbn [andb].
  - apply latest_for_snoc.
  - by rewrite app_nil_r.
Qed.

(** A run of [monitor_products]: what it appends and what the window
    holds afterwards. *)
Lemma monitor_products_run st checks :
  ∃ rs, load_all (results_file (monitor_products st checks))
        = load_all (results_file st) ++ rs
      ∧ Forall2 recorded checks rs
      ∧ ∀ u, previous_state (monitor_products st checks) !! u
             = match latest_for u (List.filter is_observation rs) with
               | Some r => Some r
               | None => previous_state st !! u
               end.
Proof.
  induction checks as [| c checks IH] using rev_ind.
  - exists []. cbn. by rewrite app_nil_r.
  - destruct IH as (rs & Hlog & Hrec & Hwin).
    rewrite monitor_products_snoc.
    destruct (check_url_step (monitor_products st checks) c.1 c.2)
      as (r & Hlog' & Hrec' & Hwin').
    exists (rs ++ [r]). split; [| split].
    + by rewrite Hlog', Hlog, <- app_assoc.
    + apply Forall2_app; [done |]. constructor; [| constructor].
      by destruct c.
    + intros u. rewrite Hwin', latest_observation_snoc.
      destruct Hrec' as [Hurl _]. cbn in Hurl.
      destruct (is_observation r); cbn [andb]; [| apply Hwin].
      destruct (String.eqb_spec (r_url r) u) as [Heq | Hne].
      * rewrite <- Heq, Hurl. apply lookup_insert_eq.
      * rewrite lookup_insert_ne; [apply Hwin | congruence].
Qed.


(** C3, counterexample.  A is observed and stored, then a check of A fails
    and the error result is stored: the window still holds the first
    result, which is not the latest result of A in the log. *)
Lemma window_misses_error_result : ¬ window_is_latest after_failure.
Proof.
  intros Hinv.
  destruct (previous_state after_failure !! "A") as [r |] eqn:Hwin;
    [| vm_compute in Hwin; discriminate].
  specialize (Hinv "A" r Hwin).
  vm_compute in Hwin, Hinv. congruence.
Qed.

(** C3, amended.  After any sequence of checks the window entry of a
    target is the latest result appended for it by a check that extracted
    a product; a target without such a result keeps the entry it had
    before.  Appending an error result leaves the window as it is.  A new
    monitor starts with, per target, the latest result among the last ten
    of the log. *)
Theorem window_follows_observations st checks :
  (∃ rs, load_all (results_file (monitor_products st checks))
         = load_all (results_file st) ++ rs
       ∧ length rs = length checks
       ∧ ∀ u, previous_state (monitor_products st checks) !! u
              = match latest_for u (List.filter is_observation rs) with
                | Some r => Some r
                | None => previous_state st !! u
                end)
  ∧ (∀ u now, previous_state (check_url st u (Failed now))
              = previous_state st)
  ∧ (∀ file u, previous_state (new_monitor file) !! u
               = latest_for u (retained file)).
Proof.
  split; [| split].
  - destruct (monitor_products_run st checks) as (rs & Hlog & Hrec & Hwin).
    exists rs. split; [done |]. split; [| done].
    symmetry. by eapply Forall2_length.
  - reflexivity.
  - intros [rs |] u; cbn.
    + apply dict_by_url_lookup.
    + apply lookup_empty.
Qed.

(** ** Report *)

Lemma url_set_size results :
  size (url_set results) = length (remove_dups (r_url <$> results)).
Proof.
  unfold url_set.
  rewrite <- (size_list_to_set (C := gset string) (remove_dups _))
    by apply NoDup_remove_dups.
  f_equal. apply set_eq. intros u.
  by rewrite !elem_of_list_to_set, elem_of_remove_dups.
Qed.

Lemma count_status_count_occ s results :
  count_status s results
  = count_occ String.string_dec (r_status <$> results) s.
Proof.
  unfold count_status.
  induction results as [| r results IH]; [done |].
  cbn. destruct (String.eqb_spec (r_status r) s) as [Heq | Hne];
    destruct (String.string_dec (r_status r) s); try done.
  cbn. by rewrite IH.
Qed.

Lemma shown_changes_listing results :
  shown_changes results = listing_of (py_tail 20 results).
Proof. reflexivity. Qed.

Lemma listing_of_bounds rs :
  length (listing_of rs) ≤ 5
  ∧ Forall (λ e, has_changes e.1 = true
                 ∧ length e.2 ≤ 3
                 ∧ e.2 `prefix_of` default [] (r_changes e.1))
      (listing_of rs).
Proof.
  unfold listing_of. split.
  - rewrite length_fmap. apply py_tail_length.
  - apply Forall_fmap, Forall_forall. intros r Hr. cbn.
    split; [| split].
    + unfold py_tail in Hr. apply subseteq_drop in Hr.
      apply list_elem_of_In, List.filter_In in Hr. tauto.
    + rewrite length_take. lia.
    + apply prefix_take.
Qed.

(** C4, counterexample.  The only result with changes is followed by
    twenty results without: it is the last result with a change of the
    log, yet the report does not list it. *)
Lemma old_change_is_not_listed :
  listing_of long_log = [(old_change, default [] (r_changes old_change))]
  ∧ shown_changes long_log = []
  ∧ report_lines long_log
    = [str_mul "=" 60; "MONITORING REPORT"; str_mul "=" 60;
       "Total checks: 21"; "Products monitored: 1";
       nl +:+ "Status breakdown:";
       "  ✓ Successful checks: 0";
       "  🔔 Changes detected: 1";
       "  ✗ Errors: 20";
       nl +:+ str_mul "=" 60].
Proof. vm_compute. done. Qed.

(** C4, amended.  The report gives the number of results, the number of
    distinct URLs, the number of results of each status, and, under a
    title that appears when there is one, the last five results with at
    least one change among the twenty most recent results of the log, each
    with its first three changes.  For the two-tick scenario it shows 3
    checks, 2 products and 1 error. *)
Theorem generate_report_contents results :
  generate_report None = "No monitoring data available"
  ∧ generate_report (Some results) = String.concat nl (report_lines results)
  ∧ report_lines results
    = [str_mul "=" 60; "MONITORING REPORT"; str_mul "=" 60;
       "Total checks: " +:+ pretty (length results);
       "Products monitored: "
         +:+ pretty (length (remove_dups (r_url <$> results)));
       nl +:+ "Status breakdown:";
       "  ✓ Successful checks: "
         +:+ pretty (count_occ String.string_dec (r_status <$> results)
                       "success");
       "  🔔 Changes detected: "
         +:+ pretty (count_occ String.string_dec (r_status <$> results)
                       "changed");
       "  ✗ Errors: "
         +:+ pretty (count_occ String.string_dec (r_status <$> results)
                       "error")]
      ++ match List.filter has_changes (py_tail 20 results) with
         | [] => []
         | r :: rs =>
             (nl +:+ "Recent changes (" +:+ pretty (S (length rs)) +:+ "):")
             :: concat (entry_lines <$> listing_of (py_tail 20 results))
         end
      ++ [nl +:+ str_mul "=" 60]
  ∧ length (listing_of (py_tail 20 results)) ≤ 5
  ∧ Forall (λ e, has_changes e.1 = true
                 ∧ length e.2 ≤ 3
                 ∧ e.2 `prefix_of` default [] (r_changes e.1))
      (listing_of (py_tail 20 results))
  ∧ report_lines (load_all (results_file after_tick2)) !! 3
    = Some "Total checks: 3"
  ∧ report_lines (load_all (results_file after_tick2)) !! 4
    = Some "Products monitored: 2"
  ∧ report_lines (load_all (results_file after_tick2)) !! 8
    = Some "  ✗ Errors: 1".
Proof.
  split; [reflexivity |]. split; [reflexivity |].
  split; [| split; [apply listing_of_bounds |
            split; [apply listing_of_bounds | by vm_compute]]].
  unfold report_lines.
  rewrite url_set_size, !count_status_count_occ, shown_changes_listing.
  unfold recent_changes.
  by destruct (List.filter has_changes (py_tail 20 results)).
Qed.

(** * Further properties *)

(** ** Change detection against stored data *)

Lemma detect_changes_cases u current previous :
  detect_changes u current previous = [first_time]
  ∨ ∃ prev_data, detect_changes u current previous
                 = field_changes current prev_data.
Proof.
  unfold detect_changes.
  destruct previous as [prev |]; [| by left].
  destruct (r_data prev) as [prev_data |]; [| by left].
  right. by exists prev_data.
Qed.

Lemma field_changes_length current prev_data :
  length (field_changes current prev_data) = differing current prev_data.
Proof.
  unfold field_changes, differing.
  by destruct (ne_price _ _), (ne_stock _ _), (ne_name _ _).
Qed.

Lemma status_of_changed chs : status_of chs = "changed" ↔ 2 ≤ length chs.
Proof.
  split.
  - intros Hst. destruct (decide (2 ≤ length chs)) as [| Hn]; [done |].
    rewrite status_of_short in Hst by lia. discriminate.
  - apply status_of_long.
Qed.

(** X1. Against stored data, [detect_changes] returns one descriptor per
    canonical field that differs, and the result is stored as ['changed']
    exactly when at least two of the three fields differ. *)
Theorem changed_needs_two_fields u current prev prev_data :
  r_data prev = Some prev_data →
  length (detect_changes u current (Some prev)) = differing current prev_data
  ∧ (status_of (detect_changes u current (Some prev)) = "changed"
     ↔ 2 ≤ differing current prev_data).
Proof.
  intros Hd. rewrite (detect_changes_field_changes _ _ _ _ Hd).
  rewrite status_of_changed, field_changes_length. done.
Qed.

Lemma changed_needs_two_fields_witness :
  r_data (stored "A" data_2999) = Some data_2999
  ∧ length (detect_changes "A" product_2499 (Some (stored "A" data_2999)))
    = differing product_2499 data_2999.
Proof.
  split; [reflexivity |].
  apply (changed_needs_two_fields "A" product_2499 (stored "A" data_2999)
           data_2999).
  reflexivity.
Defined.

Lemma field_changes_empty_data current :
  field_changes current empty_data
  = [price_change None (price current); stock_change (in_stock current);
     name_change None (name current)].
Proof. reflexivity. Qed.

(** X2. When the window entry of a URL, as loaded from the log at start-up,
    is an error result, the next check that extracts a product compares it
    with the empty data of that result: whatever the product is, three
    descriptors are stored, the status is ['changed'] and an alert is
    sent. *)
Theorem error_baseline_raises_alert log u now current :
  latest_for u (py_tail 10 log) = Some (model_dump (error_result u now)) →
  detect_changes u current (previous_state (new_monitor (Some log)) !! u)
  = [price_change None (price current); stock_change (in_stock current);
     name_change None (name current)]
  ∧ last (load_all (results_file
                      (check_url (new_monitor (Some log)) u (Fetched current))))
    = Some {| r_timestamp := last_checked current; r_url := u;
              r_status := "changed";
              r_data := Some (product_dump current);
              r_changes := Some [price_change None (price current);
                                 stock_change (in_stock current);
                                 name_change None (name current)];
              r_error_message := None |}
  ∧ alerts (check_url (new_monitor (Some log)) u (Fetched current))
    = [ {| a_changes := [price_change None (price current);
                         stock_change (in_stock current);
                         name_change None (name current)];
           a_product := current; a_url := u |} ].
Proof.
  intros Hlatest.
  assert (previous_state (new_monitor (Some log)) !! u
          = Some (model_dump (error_result u now))) as Hwin.
  { cbn. by rewrite dict_by_url_lookup. }
  assert (detect_changes u current (previous_state (new_monitor (Some log)) !! u)
          = [price_change None (price current); stock_change (in_stock current);
             name_change None (name current)]) as Hdc.
  { rewrite Hwin. reflexivity. }
  split; [done |].
  unfold check_url. rewrite Hdc. cbn [results_file alerts].
  rewrite save_result_load, last_snoc. done.
Qed.

Lemma error_baseline_raises_alert_witness :
  latest_for "A" (py_tail 10 [model_dump (error_result "A" "t0")])
  = Some (model_dump (error_result "A" "t0"))
  ∧ length (alerts (check_url
                      (new_monitor (Some [model_dump (error_result "A" "t0")]))
                      "A" (Fetched product_a10))) = 1.
Proof.
  split; [reflexivity |].
  destruct (error_baseline_raises_alert [model_dump (error_result "A" "t0")]
              "A" "t0" product_a10) as (_ & _ & Ha); [reflexivity |].
  rewrite Ha. reflexivity.
Defined.

(** X3. A check that finds the product as the previous check of the same
    URL stored it (same name, price and stock) stores a ['success'] result
    without changes and sends no alert. *)
Theorem recheck_without_change st u p p' :
  name p' = name p →
  (price p == price p')%Q →
  in_stock p' = in_stock p →
  load_all (results_file
              (check_url (check_url st u (Fetched p)) u (Fetched p')))
  = load_all (results_file (check_url st u (Fetched p)))
    ++ [ {| r_timestamp := last_checked p'; r_url := u;
            r_status := "success";
            r_data := Some (product_dump p');
            r_changes := None;
            r_error_message := None |} ]
  ∧ alerts (check_url (check_url st u (Fetched p)) u (Fetched p'))
    = alerts (check_url st u (Fetched p)).
Proof.
  intros Hn Hp Hs.
  assert (detect_changes u p'
            (previous_state (check_url st u (Fetched p)) !! u) = []) as Hdc.
  { cbn. rewrite lookup_insert_eq. cbn. unfold field_changes. cbn.
    rewrite Hn, Hs, (Qeq_eq_bool _ _ Hp), Bool.eqb_reflx, String.eqb_refl.
    done. }
  set (st1 := check_url st u (Fetched p)) in *.
  unfold check_url. rewrite Hdc. done.
Qed.

Lemma recheck_without_change_witness :
  name product_a10 = name product_a10
  ∧ alerts (check_url (check_url (new_monitor None) "A" (Fetched product_a10))
              "A" (Fetched product_a10))
    = alerts (check_url (new_monitor None) "A" (Fetched product_a10)).
Proof.
  split; [reflexivity |].
  apply (recheck_without_change (new_monitor None) "A" product_a10
           product_a10); reflexivity.
Defined.

(** ** Alerts *)

Lemma count_status_snoc s rs r :
  count_status s (rs ++ [r])
  = count_status s rs + (if String.eqb (r_status r) s then 1 else 0).
Proof.
  unfold count_status. rewrite List.filter_app, length_app. cbn.
  by destruct (String.eqb (r_status r) s).
Qed.

(** One check sends an alert exactly when it stores a ['changed'] result. *)
Lemma check_url_alert st u o :
  ∃ r new,
    load_all (results_file (check_url st u o))
    = load_all (results_file st) ++ [r]
    ∧ known_status r
    ∧ alerts (check_url st u o) = alerts st ++ new
    ∧ length new = (if String.eqb (r_status r) "changed" then 1 else 0)
    ∧ Forall (alert_for u r) new.
Proof.
  destruct o as [current | now]; cbn [check_url].
  - pose proof (detect_changes_cases u current (previous_state st !! u))
      as Hcases.
    remember (detect_changes u current (previous_state st !! u)) as chs
      eqn:Hchs.
    clear Hchs.
    exists (model_dump (success_result u current chs)).
    destruct (decide (2 ≤ length chs)) as [Hlen | Hlen].
    + exists [{| a_changes := chs; a_product := current; a_url := u |}].
      assert (status_of chs = "changed") as Hst by by apply status_of_long.
      assert ((1 <? length chs) = true) as Hlt by (apply Nat.ltb_lt; lia).
      split; [reflexivity |].
      split; [right; left; exact Hst |].
      split; [cbn [alerts]; by rewrite Hlt |].
      split; [cbn; by rewrite Hst |].
      constructor; [| constructor].
      split; [done |].
      split; [cbn; destruct chs; [cbn in Hlen; lia | done] |].
      split; [done |]. cbn [a_changes].
      destruct Hcases as [Hone | [prev_data Hfc]].
      * rewrite Hone in Hlen. cbn in Hlen. lia.
      * rewrite Hfc. split; [| apply field_changes_no_first_time].
        split; [by rewrite <- Hfc |].
        pose proof (sublist_length _ _ (field_changes_sublist current prev_data))
          as Hsub. cbn in Hsub. lia.
    + exists [].
      assert (status_of chs = "success") as Hst
        by (apply status_of_short; lia).
      assert ((1 <? length chs) = false) as Hlt by (apply Nat.ltb_ge; lia).
      split; [reflexivity |].
      split; [left; exact Hst |].
      split; [cbn [alerts]; by rewrite Hlt, app_nil_r |].
      split; [cbn; by rewrite Hst | constructor].
  - exists (model_dump (error_result u now)), [].
    split; [reflexivity |].
    split; [right; right; reflexivity |].
    split; [cbn; by rewrite app_nil_r |]. split; [reflexivity | constructor].
Qed.

(** A run: the alerts it sends against the results it stores. *)
Lemma monitor_products_alerts st checks :
  ∃ rs new,
    load_all (results_file (monitor_products st checks))
    = load_all (results_file st) ++ rs
    ∧ Forall known_status rs
    ∧ alerts (monitor_products st checks) = alerts st ++ new
    ∧ length new = count_status "changed" rs
    ∧ Forall (λ a, ∃ r, r ∈ rs ∧ alert_for (r_url r) r a) new.
Proof.
  induction checks as [| c checks IH] using rev_ind.
  - exists [], []. cbn. rewrite !app_nil_r. repeat split; constructor.
  - destruct IH as (rs & new & Hlog & Hks & Hal & Hlen & Hall).
    rewrite monitor_products_snoc.
    destruct (check_url_alert (monitor_products st checks) c.1 c.2)
      as (r & new' & Hlog' & Hk' & Hal' & Hlen' & Hall').
    destruct (check_url_step (monitor_products st checks) c.1 c.2)
      as (r2 & Hlog2 & [Hurl _] & _).
    rewrite Hlog' in Hlog2. apply app_inv_head in Hlog2.
    injection Hlog2 as <-. cbn in Hurl.
    exists (rs ++ [r]), (new ++ new'). repeat split.
    + by rewrite Hlog', Hlog, <- app_assoc.
    + apply Forall_app. split; [done | by constructor].
    + by rewrite Hal', Hal, <- app_assoc.
    + rewrite length_app, count_status_snoc. lia.
    + apply Forall_app. split.
      * eapply Forall_impl; [exact Hall |]. intros a (r' & Hin & Ha).
        exists r'. split; [| done]. apply elem_of_app. by left.
      * eapply Forall_impl; [exact Hall' |]. intros a Ha.
        exists r. split; [| by rewrite Hurl].
        apply elem_of_app. right. apply elem_of_cons. by left.
Qed.

(** X4. [monitor_products] only adds alerts, and it adds as many as it
    stores results with status ['changed']. *)
Theorem alerts_match_changed_results st checks :
  ∃ rs new,
    load_all (results_file (monitor_products st checks))
    = load_all (results_file st) ++ rs
    ∧ alerts (monitor_products st checks) = alerts st ++ new
    ∧ length new = count_status "changed" rs.
Proof.
  destruct (monitor_products_alerts st checks)
    as (rs & new & Hlog & _ & Hal & Hlen & _).
  by exists rs, new.
Qed.

(** X5. Every alert that [monitor_products] sends belongs to a result it
    stored in the same run: it carries the URL, the product and the changes
    of that result, which are two or three descriptors and never the
    first-time entry. *)
Theorem alerts_carry_real_changes st checks :
  ∃ rs new,
    load_all (results_file (monitor_products st checks))
    = load_all (results_file st) ++ rs
    ∧ alerts (monitor_products st checks) = alerts st ++ new
    ∧ Forall (λ a, ∃ r, r ∈ rs
                        ∧ a_url a = r_url r
                        ∧ r_changes r = Some (a_changes a)
                        ∧ r_data r = Some (product_dump (a_product a))
                        ∧ 2 ≤ length (a_changes a) ≤ 3
                        ∧ first_time ∉ a_changes a) new.
Proof.
  destruct (monitor_products_alerts st checks)
    as (rs & new & Hlog & _ & Hal & _ & Hall).
  exists rs, new. split; [done |]. split; [done |].
  eapply Forall_impl; [exact Hall |].
  intros a (r & Hin & Ha). exists r. split; [done |]. exact Ha.
Qed.

(** ** Figures of the report *)

Lemma count_status_disjoint rs :
  count_status "success" rs + count_status "changed" rs
  + count_status "error" rs ≤ length rs.
Proof.
  induction rs as [| r rs IH] using rev_ind; [done |].
  rewrite !count_status_snoc, length_app. cbn.
  destruct (String.eqb_spec (r_status r) "success") as [H1 | H1],
    (String.eqb_spec (r_status r) "changed") as [H2 | H2],
    (String.eqb_spec (r_status r) "error") as [H3 | H3];
    try (exfalso; congruence); lia.
Qed.

Lemma count_status_total rs :
  Forall known_status rs →
  count_status "success" rs + count_status "changed" rs
  + count_status "error" rs = length rs.
Proof.
  induction rs as [| r rs IH] using rev_ind; [done |].
  intros [Hrs Hr]%Forall_app. apply Forall_inv in Hr.
  specialize (IH Hrs).
  rewrite !count_status_snoc, length_app. cbn.
  destruct Hr as [Hs | [Hs | Hs]]; rewrite Hs; cbn; lia.
Qed.

(** X6. If every result of the log has one of the statuses ['success'],
    ['changed'] and ['error'], this still holds after [monitor_products],
    and the three counts of the status breakdown add up to the total
    number of checks. *)
Theorem status_breakdown_adds_up st checks :
  Forall known_status (load_all (results_file st)) →
  Forall known_status (load_all (results_file (monitor_products st checks)))
  ∧ count_status "success" (load_all (results_file (monitor_products st checks)))
    + count_status "changed" (load_all (results_file (monitor_products st checks)))
    + count_status "error" (load_all (results_file (monitor_products st checks)))
    = length (load_all (results_file (monitor_products st checks))).
Proof.
  intros Hold.
  destruct (monitor_products_alerts st checks) as (rs & _ & Hlog & Hks & _).
  assert (Forall known_status
            (load_all (results_file (monitor_products st checks)))) as Hall.
  { rewrite Hlog. apply Forall_app. by split. }
  split; [done |]. by apply count_status_total.
Qed.

Lemma status_breakdown_adds_up_witness :
  Forall known_status (load_all (results_file (new_monitor None)))
  ∧ count_status "success" (load_all (results_file after_tick1))
    + count_status "changed" (load_all (results_file after_tick1))
    + count_status "error" (load_all (results_file after_tick1))
    = length (load_all (results_file after_tick1)).
Proof.
  split; [constructor |].
  apply (status_breakdown_adds_up (new_monitor None)
           [("A", Fetched product_a10); ("B", Failed "t2")]).
  constructor.
Defined.

(** X7. In every report the three status counts together do not exceed
    the total, and the number of products does not exceed it either.  The
    number announced in the title of the recent changes is at most 20,
    while the results listed under it are the last five of them at most. *)
Theorem report_figures_bounds results :
  count_status "success" results + count_status "changed" results
  + count_status "error" results ≤ length results
  ∧ size (url_set results) ≤ length results
  ∧ length (recent_changes results) ≤ 20
  ∧ length (shown_changes results) = 5 `min` length (recent_changes results)
  ∧ fst <$> shown_changes results = py_tail 5 (recent_changes results).
Proof.
  split; [apply count_status_disjoint |].
  split.
  { rewrite <- dict_by_url_dom, size_dom. apply dict_by_url_size. }
  split.
  { unfold recent_changes.
    etrans; [apply filter_length_le | apply py_tail_length]. }
  split.
  { unfold shown_changes, py_tail. rewrite length_fmap, length_drop. lia. }
  unfold shown_changes.
  induction (py_tail 5 (recent_changes results)) as [| r rs IH]; [done |].
  cbn. by rewrite IH.
Qed.

(** ** The window in memory and the window read back from the log *)

Lemma py_tail_app {A} n (a b : list A) :
  py_tail n (a ++ b) = py_tail (n - length b) a ++ py_tail n b.
Proof.
  unfold py_tail. rewrite length_app, drop_app. f_equal.
  - destruct (decide (length b ≤ n)) as [Hle | Hgt].
    + f_equal. lia.
    + rewrite !drop_ge by lia. done.
  - f_equal. lia.
Qed.

Lemma latest_for_app u a b :
  latest_for u (a ++ b)
  = match latest_for u b with
    | Some y => Some y
    | None => latest_for u a
    end.
Proof. unfold latest_for. by rewrite List.filter_app, last_app. Qed.

Lemma latest_for_py_tail u n rs x :
  latest_for u (py_tail n rs) = Some x → latest_for u rs = Some x.
Proof.
  intros Hx. unfold py_tail in Hx.
  rewrite <- (take_drop (length rs - n) rs), latest_for_app. by rewrite Hx.
Qed.

Lemma load_previous_state_load_all file :
  load_previous_state file = dict_by_url (py_tail 10 (load_all file)).
Proof. by destruct file. Qed.

Lemma py_tail_snoc {A} n (xs : list A) x :
  py_tail (S n) (xs ++ [x]) = py_tail n xs ++ [x].
Proof.
  rewrite py_tail_app. cbn [length]. rewrite Nat.sub_succ, Nat.sub_0_r.
  f_equal.
Qed.

(** X8. Saving a result and reading the window back gives that result for
    its URL; for any other URL it gives the latest result among the last
    nine results of the former log, so an entry that was tenth from the
    end is lost. *)
Theorem saved_result_is_reloaded file m :
  load_previous_state (save_result file m) !! url m = Some (model_dump m)
  ∧ ∀ u, u ≠ url m →
         load_previous_state (save_result file m) !! u
         = latest_for u (py_tail 9 (load_all file)).
Proof.
  rewrite load_previous_state_load_all, save_result_load, py_tail_snoc.
  split.
  - rewrite dict_by_url_lookup, latest_for_snoc.
    cbn [model_dump r_url]. by rewrite String.eqb_refl.
  - intros u Hne.
    rewrite dict_by_url_lookup, latest_for_snoc. cbn [model_dump r_url].
    destruct (String.eqb_spec (url m) u) as [Heq | _]; [congruence | done].
Qed.

Lemma check_url_dom st u o :
  dom (previous_state (check_url st u o))
  = dom (previous_state st)
    ∪ list_to_set (fst <$> List.filter is_fetched [(u, o)]).
Proof.
  destruct o as [current | now]; cbn.
  - rewrite dom_insert_L, (right_id_L ∅ (∪)). apply (comm_L (∪)).
  - by rewrite (right_id_L ∅ (∪)).
Qed.

(** X9. [monitor_products] never removes a URL from the window in memory:
    afterwards the window holds the URLs it held before and those of the
    checks that extracted a product, so it is not limited to ten
    entries. *)
Theorem window_never_forgets st checks :
  dom (previous_state (monitor_products st checks))
  = dom (previous_state st)
    ∪ list_to_set (fst <$> List.filter is_fetched checks)
  ∧ size (previous_state st)
    ≤ size (previous_state (monitor_products st checks)).
Proof.
  assert (dom (previous_state (monitor_products st checks))
          = dom (previous_state st)
            ∪ list_to_set (fst <$> List.filter is_fetched checks)) as Hdom.
  { induction checks as [| c checks IH] using rev_ind.
    - cbn. by rewrite (right_id_L ∅ (∪)).
    - rewrite monitor_products_snoc, check_url_dom, IH.
      rewrite List.filter_app, fmap_app, list_to_set_app_L.
      destruct c as [u o]. cbn [fst snd].
      by rewrite (assoc_L (∪)). }
  split; [done |].
  rewrite <- !(size_dom (D := gset string)), Hdom.
  apply subseteq_size, union_subseteq_l.
Qed.

Lemma recorded_fetched_observation c r :
  is_fetched c = true → recorded c r → is_observation r = true.
Proof.
  unfold is_fetched, recorded, is_observation.
  destruct c as [u [current | now]]; cbn; [| done].
  intros _ (_ & [Hs | Hs] & _); by rewrite Hs.
Qed.

Lemma all_fetched_observations checks rs :
  Forall (λ c, is_fetched c = true) checks →
  Forall2 recorded checks rs →
  List.filter is_observation rs = rs.
Proof.
  intros Hall Hrec. induction Hrec as [| c r checks rs Hcr Hrec IH]; [done |].
  apply Forall_cons in Hall as [Hc Hall]. cbn.
  rewrite (recorded_fetched_observation _ _ Hc Hcr). f_equal. by apply IH.
Qed.

(** X10. If no check of a run fails, reading the window back from the log
    agrees with the window in memory: every entry of the window that
    [load_previous_state] would build from the file is the entry the
    monitor holds. *)
Theorem reload_agrees_without_failures file checks :
  Forall (λ c, is_fetched c = true) checks →
  load_previous_state (results_file (monitor_products (new_monitor file) checks))
  ⊆ previous_state (monitor_products (new_monitor file) checks).
Proof.
  intros Hall.
  destruct (monitor_products_run (new_monitor file) checks)
    as (rs & Hlog & Hrec & Hwin).
  apply map_subseteq_spec. intros u x Hx.
  rewrite Hwin, (all_fetched_observations _ _ Hall Hrec).
  rewrite load_previous_state_load_all, Hlog in Hx. cbn [new_monitor results_file] in Hx.
  rewrite dict_by_url_lookup, py_tail_app, latest_for_app in Hx.
  destruct (latest_for u (py_tail 10 rs)) as [y |] eqn:Hy.
  - apply latest_for_py_tail in Hy. by rewrite Hy.
  - destruct (decide (10 ≤ length rs)) as [Hlong | Hshort].
    + replace (10 - length rs) with 0 in Hx by lia.
      unfold py_tail in Hx. rewrite Nat.sub_0_r, drop_all in Hx. done.
    + rewrite py_tail_short in Hy by lia. rewrite Hy.
      cbn. rewrite load_previous_state_load_all, dict_by_url_lookup.
      assert (py_tail (10 - length rs) (load_all file)
              = py_tail (10 - length rs) (py_tail 10 (load_all file))) as Heq.
      { unfold py_tail. rewrite drop_drop, length_drop. f_equal. lia. }
      rewrite Heq in Hx. by apply latest_for_py_tail in Hx.
Qed.

Lemma reload_agrees_without_failures_witness :
  Forall (λ c, is_fetched c = true) [("A", Fetched product_a10)]
  ∧ load_previous_state
      (results_file (monitor_products (new_monitor None)
                       [("A", Fetched product_a10)]))
    ⊆ previous_state (monitor_products (new_monitor None)
                        [("A", Fetched product_a10)]).
Proof.
  split; [by repeat constructor |].
  apply (reload_agrees_without_failures None [("A", Fetched product_a10)]).
  by repeat constructor.
Defined.

(** ** Checking a page *)

(** X11. [check_product_page] returns a product only when the session
    started, the error probe did not both match its schema and answer yes,
    and the extraction matched its schema; the product then has the
    extracted name, price and stock, and the time of the check in place of
    the extracted [last_checked].  In every other case, an [ActError]
    included, it returns [None], and [monitor_products] then stores an
    error result and leaves the window and the alerts as they were. *)
Theorem check_product_page_result s now p :
  (check_product_page s now = Some p
   ↔ ∃ matches parsed q,
       s = Probed matches parsed (Extracted true q)
       ∧ matches && parsed = false
       ∧ p = {| name := name q; price := price q; in_stock := in_stock q;
                last_checked := now |})
  ∧ (check_product_page s now = None →
     ∀ st u now',
       load_all (results_file (check_url st u (observe s now now')))
       = load_all (results_file st) ++ [model_dump (error_result u now')]
       ∧ previous_state (check_url st u (observe s now now'))
         = previous_state st
       ∧ alerts (check_url st u (observe s now now')) = alerts st).
Proof.
  split.
  - split.
    + destruct s as [| | matches parsed [| [|] q]]; cbn; try done;
        destruct (matches && parsed) eqn:Hprobe; try done.
      intros [= <-]. by exists matches, parsed, q.
    + intros (matches & parsed & q & -> & Hprobe & ->). cbn.
      by rewrite Hprobe.
  - intros Hnone st u now'. unfold observe. by rewrite Hnone.
Qed.

(** ** Scheduled monitoring *)

Lemma div6_succ k : S k / 6 = k / 6 + (if S k mod 6 =? 0 then 1 else 0).
Proof.
  pose proof (Nat.div_mod_eq k 6) as Hk.
  pose proof (Nat.div_mod_eq (S k) 6) as HSk.
  pose proof (Nat.mod_upper_bound k 6 ltac:(lia)) as Hbk.
  pose proof (Nat.mod_upper_bound (S k) 6 ltac:(lia)) as HbSk.
  destruct (Nat.eqb_spec (S k mod 6) 0); lia.
Qed.

Lemma checks_for_length urls feed : length (checks_for urls feed) = length urls.
Proof. apply length_imap. Qed.

(** One run appends one result per URL. *)
Lemma run_appends urls feed m :
  ∃ rs, load_all (results_file (monitor_products m (checks_for urls feed)))
        = load_all (results_file m) ++ rs
      ∧ length rs = length urls.
Proof.
  destruct (monitor_products_run m (checks_for urls feed))
    as (rs & Hlog & Hrec & _).
  exists rs. split; [done |].
  by rewrite <- (Forall2_length _ _ _ Hrec), checks_for_length.
Qed.

(** The loop with a wait that [time.sleep] accepts: what it stores and
    what it prints. *)
Lemma scheduled_loop_completes urls interval_minutes max_runs feed n run s :
  (0 ≤ interval_minutes)%Z →
  run + n = Z.to_nat max_runs →
  ∃ s' rs new,
    scheduled_loop urls interval_minutes max_runs feed n run s = Completed s'
    ∧ load_all (results_file (monitor s'))
      = load_all (results_file (monitor s)) ++ rs
    ∧ length rs = n * length urls
    ∧ printed s' = printed s ++ new
    ∧ length (List.filter is_report new) = (run + n) / 6 - run / 6
    ∧ length (List.filter is_sleep new) = n - 1
    ∧ Forall (λ o, is_sleep o = true → o = Sleep (interval_minutes * 60)) new.
Proof.
  intros Hint. revert run s.
  induction n as [| n IH]; intros run s Hruns.
  - exists s, [], []. cbn. rewrite !app_nil_r, Nat.add_0_r, Nat.sub_diag.
    repeat split; constructor.
  - cbn [scheduled_loop]. unfold scheduled_run.
    destruct (run_appends urls (feed run) (monitor s)) as (rs1 & Hlog1 & Hlen1).
    set (m := monitor_products (monitor s) (checks_for urls (feed run))) in *.
    set (out := if (run + 1) mod 6 =? 0 then print_report m (printed s)
                else printed s).
    assert (∃ new1, out = printed s ++ new1
              ∧ length (List.filter is_report new1)
                = (if S run mod 6 =? 0 then 1 else 0)
              ∧ List.filter is_sleep new1 = []) as (new1 & Hout & Hrep1 & Hsl1).
    { unfold out. rewrite Nat.add_1_r.
      destruct (S run mod 6 =? 0).
      - eexists. split; [reflexivity | done].
      - exists []. by rewrite app_nil_r. }
    assert ((interval_minutes * 60 <? 0)%Z = false) as Hwait
      by (apply Z.ltb_ge; lia).
    rewrite Hwait.
    destruct (Z.ltb_spec (Z.of_nat run) (max_runs - 1)) as [Hmore | Hlast].
    + destruct (IH (S run)
                  {| monitor := m;
                     printed := out ++ [Sleep (interval_minutes * 60)] |})
        as (s' & rs & new & Hloop & Hlog & Hlen & Hpr & Hrep & Hsl & Hall);
        [lia |].
      exists s', (rs1 ++ rs),
        (new1 ++ [Sleep (interval_minutes * 60)] ++ new).
      cbn [monitor printed] in *.
      split; [done |].
      split; [by rewrite Hlog, Hlog1, <- app_assoc |].
      split; [rewrite length_app; lia |].
      split; [by rewrite Hpr, Hout, <- !app_assoc |].
      rewrite !List.filter_app, !length_app, Hsl1.
      cbn [List.filter is_report is_sleep negb length].
      split; [| split].
      * rewrite Hrep1, Hrep.
        pose proof (div6_succ run) as Hdiv.
        pose proof (Nat.Div0.div_le_mono (S run) (S run + n) 6 ltac:(lia)).
        replace (run + S n) with (S run + n) by lia. lia.
      * rewrite Hsl. lia.
      * apply Forall_app. split.
        { apply Forall_forall. intros o Ho Hs.
          assert (o ∈ List.filter is_sleep new1) as Hin
            by (apply list_elem_of_In, List.filter_In;
                split; [by apply list_elem_of_In | done]).
          rewrite Hsl1 in Hin. by apply elem_of_nil in Hin. }
        constructor; [done | exact Hall].
    + assert (n = 0) as -> by lia.
      exists {| monitor := m; printed := out |}, rs1, new1.
      cbn [scheduled_loop monitor printed].
      split; [done |]. split; [done |]. split; [lia |]. split; [done |].
      split; [| split].
      * rewrite Hrep1, Nat.add_1_r. pose proof (div6_succ run). lia.
      * by rewrite Hsl1.
      * apply Forall_forall. intros o Ho Hs.
        assert (o ∈ List.filter is_sleep new1) as Hin
          by (apply list_elem_of_In, List.filter_In;
              split; [by apply list_elem_of_In | done]).
        rewrite Hsl1 in Hin. by apply elem_of_nil in Hin.
Qed.

Lemma scheduled_monitoring_completes file urls interval_minutes max_runs feed :
  (0 ≤ interval_minutes)%Z →
  ∃ s rs new,
    scheduled_monitoring file urls interval_minutes max_runs feed = Completed s
    ∧ load_all (results_file (monitor s)) = load_all file ++ rs
    ∧ length rs = Z.to_nat max_runs * length urls
    ∧ printed s
      = new ++ [Report (nl +:+ generate_report (results_file (monitor s)))]
    ∧ length (List.filter is_report new) = Z.to_nat max_runs / 6
    ∧ length (List.filter is_sleep new) = Z.to_nat max_runs - 1
    ∧ Forall (λ o, is_sleep o = true → o = Sleep (interval_minutes * 60)) new.
Proof.
  intros Hint. unfold scheduled_monitoring.
  destruct (scheduled_loop_completes urls interval_minutes max_runs feed
              (Z.to_nat max_runs) 0
              {| monitor := new_monitor file; printed := [] |} Hint eq_refl)
    as (s & rs & new & -> & Hlog & Hlen & Hpr & Hrep & Hsl & Hall).
  cbn [monitor printed app] in *.
  eexists. exists rs, new. split; [reflexivity |]. cbn [monitor printed].
  split; [done |]. split; [done |].
  split; [by rewrite Hpr |].
  split; [| done].
  rewrite Hrep. cbn [Nat.add]. by rewrite Nat.sub_0_r.
Qed.

(** X12. With a non-negative interval [scheduled_monitoring] ends
    normally; it keeps the former content of the log and appends one
    result per URL and run, [max_runs] times the number of URLs in all
    (none when [max_runs] is negative). *)
Theorem scheduled_monitoring_stores_every_run
    file urls interval_minutes max_runs feed :
  (0 ≤ interval_minutes)%Z →
  ∃ s rs,
    scheduled_monitoring file urls interval_minutes max_runs feed = Completed s
    ∧ load_all (results_file (monitor s)) = load_all file ++ rs
    ∧ length rs = Z.to_nat max_runs * length urls.
Proof.
  intros Hint.
  destruct (scheduled_monitoring_completes file urls interval_minutes
              max_runs feed Hint) as (s & rs & new & Hrun & Hlog & Hlen & _).
  by exists s, rs.
Qed.

Lemma scheduled_monitoring_stores_every_run_witness :
  (0 ≤ 1)%Z
  ∧ ∃ s rs,
      scheduled_monitoring None ["A"] 1 2 (λ _ _, Fetched product_a10)
      = Completed s
      ∧ load_all (results_file (monitor s)) = load_all None ++ rs
      ∧ length rs = Z.to_nat 2 * length ["A"].
Proof.
  split; [lia |].
  apply (scheduled_monitoring_stores_every_run None ["A"] 1 2
           (λ _ _, Fetched product_a10)).
  lia.
Defined.

(** X13. With a non-negative interval [scheduled_monitoring] sleeps once
    between two consecutive runs and not after the last one: [max_runs - 1]
    times when there is a run at all, each time for [interval_minutes * 60]
    seconds. *)
Theorem scheduled_monitoring_sleeps_between_runs
    file urls interval_minutes max_runs feed :
  (0 ≤ interval_minutes)%Z →
  ∃ s,
    scheduled_monitoring file urls interval_minutes max_runs feed = Completed s
    ∧ length (List.filter is_sleep (printed s)) = Z.to_nat max_runs - 1
    ∧ Forall (λ o, is_sleep o = true → o = Sleep (interval_minutes * 60))
        (printed s).
Proof.
  intros Hint.
  destruct (scheduled_monitoring_completes file urls interval_minutes
              max_runs feed Hint)
    as (s & rs & new & Hrun & _ & _ & Hpr & _ & Hsl & Hall).
  exists s. split; [done |]. rewrite Hpr. split.
  - rewrite List.filter_app, length_app. cbn. lia.
  - apply Forall_app. split; [done |]. by constructor.
Qed.

Lemma scheduled_monitoring_sleeps_between_runs_witness :
  (0 ≤ 1)%Z
  ∧ ∃ s,
      scheduled_monitoring None ["A"] 1 2 (λ _ _, Fetched product_a10)
      = Completed s
      ∧ length (List.filter is_sleep (printed s)) = Z.to_nat 2 - 1
      ∧ Forall (λ o, is_sleep o = true → o = Sleep (1 * 60)) (printed s).
Proof.
  split; [lia |].
  apply (scheduled_monitoring_sleeps_between_runs None ["A"] 1 2
           (λ _ _, Fetched product_a10)).
  lia.
Defined.

(** X14. With a non-negative interval [scheduled_monitoring] prints a
    report after every sixth run and one more at the end: [max_runs / 6 + 1]
    reports, the last thing printed being the report of the final log. *)
Theorem scheduled_monitoring_reports
    file urls interval_minutes max_runs feed :
  (0 ≤ interval_minutes)%Z →
  ∃ s,
    scheduled_monitoring file urls interval_minutes max_runs feed = Completed s
    ∧ length (List.filter is_report (printed s)) = Z.to_nat max_runs / 6 + 1
    ∧ last (printed s)
      = Some (Report (nl +:+ generate_report (results_file (monitor s)))).
Proof.
  intros Hint.
  destruct (scheduled_monitoring_completes file urls interval_minutes
              max_runs feed Hint)
    as (s & rs & new & Hrun & _ & _ & Hpr & Hrep & _).
  exists s. split; [done |]. rewrite Hpr. split.
  - rewrite List.filter_app, length_app, Hrep. cbn. lia.
  - apply last_snoc.
Qed.

Lemma scheduled_monitoring_reports_witness :
  (0 ≤ 1)%Z
  ∧ ∃ s,
      scheduled_monitoring None ["A"] 1 2 (λ _ _, Fetched product_a10)
      = Completed s
      ∧ length (List.filter is_report (printed s)) = Z.to_nat 2 / 6 + 1
      ∧ last (printed s)
        = Some (Report (nl +:+ generate_report (results_file (monitor s)))).
Proof.
  split; [lia |].
  apply (scheduled_monitoring_reports None ["A"] 1 2
           (λ _ _, Fetched product_a10)).
  lia.
Defined.

(** X15. With a negative interval and at least two runs
    [scheduled_monitoring] performs the first run, storing its results,
    and is then stopped by the error of [time.sleep]: no further run takes
    place and no report is printed, the final one included. *)
Theorem scheduled_monitoring_negative_interval
    file urls interval_minutes max_runs feed :
  (interval_minutes < 0)%Z →
  (2 ≤ max_runs)%Z →
  scheduled_monitoring file urls interval_minutes max_runs feed
  = Raised {| monitor := monitor_products (new_monitor file)
                           (checks_for urls (feed 0));
              printed := [] |}.
Proof.
  intros Hneg Hruns. unfold scheduled_monitoring.
  destruct (Z.to_nat max_runs) as [| n] eqn:Hn; [lia |].
  cbn [scheduled_loop]. unfold scheduled_run. cbn [monitor printed].
  assert ((Z.of_nat 0 <? max_runs - 1)%Z = true) as -> by (apply Z.ltb_lt; lia).
  assert ((interval_minutes * 60 <? 0)%Z = true) as -> by (apply Z.ltb_lt; lia).
  reflexivity.
Qed.

Lemma scheduled_monitoring_negative_interval_witness :
  (-1 < 0)%Z ∧ (2 ≤ 2)%Z
  ∧ scheduled_monitoring None ["A"] (-1) 2 (λ _ _, Fetched product_a10)
    = Raised {| monitor := monitor_products (new_monitor None)
                             (checks_for ["A"] (λ _, Fetched product_a10));
                printed := [] |}.
Proof.
  split; [lia |]. split; [lia |].
  apply (scheduled_monitoring_negative_interval None ["A"] (-1) 2
           (λ _ _, Fetched product_a10)); lia.
Defined.

Lemma scheduled_loop_no_urls interval_minutes max_runs feed n run s text :
  (0 ≤ interval_minutes)%Z →
  generate_report (results_file (monitor s)) = text →
  Forall (λ o, is_report o = true → o = Report (nl +:+ text)) (printed s) →
  ∃ s', scheduled_loop [] interval_minutes max_runs feed n run s = Completed s'
      ∧ monitor s' = monitor s
      ∧ Forall (λ o, is_report o = true → o = Report (nl +:+ text))
          (printed s').
Proof.
  intros Hint. revert run s.
  induction n as [| n IH]; intros run s Htext Hall; [by exists s |].
  cbn [scheduled_loop]. unfold scheduled_run.
  cbn [checks_for imap monitor_products foldl].
  assert ((interval_minutes * 60 <? 0)%Z = false) as ->
    by (apply Z.ltb_ge; lia).
  assert (Forall (λ o, is_report o = true → o = Report (nl +:+ text))
            (if (run + 1) mod 6 =? 0
             then print_report (monitor s) (printed s) else printed s))
    as Hout.
  { destruct ((run + 1) mod 6 =? 0); [| done].
    apply Forall_app. split; [done |]. constructor; [| done].
    intros _. by rewrite Htext. }
  destruct (Z.of_nat run <? max_runs - 1)%Z.
  - destruct (IH (S run)
                {| monitor := monitor s;
                   printed := (if (run + 1) mod 6 =? 0
                               then print_report (monitor s) (printed s)
                               else printed s)
                              ++ [Sleep (interval_minutes * 60)] |})
      as (s' & Hloop & Hmon & Hall'); [done | |].
    + cbn [printed]. apply Forall_app. split; [done |].
      constructor; [| done]. cbn. done.
    + exists s'. by rewrite Hloop.
  - destruct (IH (S run)
                {| monitor := monitor s;
                   printed := if (run + 1) mod 6 =? 0
                              then print_report (monitor s) (printed s)
                              else printed s |})
      as (s' & Hloop & Hmon & Hall'); [done | done |].
    exists s'. by rewrite Hloop.
Qed.

(** X16. With an empty list of URLs [scheduled_monitoring] leaves the
    results file as it is, so a file that was absent is not created, and
    every report it prints is the report of that file: the text
    ["No monitoring data available"] when the file is absent. *)
Theorem scheduled_monitoring_without_urls file interval_minutes max_runs feed :
  (0 ≤ interval_minutes)%Z →
  ∃ s,
    scheduled_monitoring file [] interval_minutes max_runs feed = Completed s
    ∧ results_file (monitor s) = file
    ∧ Forall (λ o, is_report o = true
                   → o = Report (nl +:+ generate_report file)) (printed s)
    ∧ generate_report None = "No monitoring data available".
Proof.
  intros Hint. unfold scheduled_monitoring.
  destruct (scheduled_loop_no_urls interval_minutes max_runs feed
              (Z.to_nat max_runs) 0
              {| monitor := new_monitor file; printed := [] |}
              (generate_report file) Hint eq_refl ltac:(constructor))
    as (s & -> & Hmon & Hall).
  eexists. split; [reflexivity |]. cbn [monitor printed] in *.
  rewrite Hmon. split; [done |]. split; [| done].
  apply Forall_app. split; [done |]. by constructor.
Qed.

Lemma scheduled_monitoring_without_urls_witness :
  (0 ≤ 1)%Z
  ∧ ∃ s,
      scheduled_monitoring None [] 1 7 (λ _ _, Failed "t") = Completed s
      ∧ results_file (monitor s) = None.
Proof.
  split; [lia |].
  destruct (scheduled_monitoring_without_urls None 1 7 (λ _ _, Failed "t"))
    as (s & Hrun & Hfile & _); [lia |].
  by exists s.
Defined.

(** ** Start-up *)

(** X17. A monitor created on a log whose last ten results hold none for
    a URL treats the next check of that URL as a first observation, whatever
    older results the log has for it: the single first-time entry is stored
    with status ['success'] and no alert is sent. *)
Theorem stale_history_is_first_time log u current :
  latest_for u (py_tail 10 log) = None →
  detect_changes u current (previous_state (new_monitor (Some log)) !! u)
  = [first_time]
  ∧ last (load_all (results_file
                      (check_url (new_monitor (Some log)) u (Fetched current))))
    = Some {| r_timestamp := last_checked current; r_url := u;
              r_status := "success";
              r_data := Some (product_dump current);
              r_changes := Some [first_time];
              r_error_message := None |}
  ∧ alerts (check_url (new_monitor (Some log)) u (Fetched current)) = [].
Proof.
  intros Hnone.
  assert (previous_state (new_monitor (Some log)) !! u = None) as Hwin.
  { cbn. by rewrite dict_by_url_lookup. }
  unfold check_url. rewrite Hwin. cbn [detect_changes results_file alerts].
  rewrite save_result_load, last_snoc. done.
Qed.

Lemma stale_history_is_first_time_witness :
  latest_for "A" (py_tail 10 crowded_log) = None
  ∧ latest_for "A" crowded_log
    = Some (model_dump (success_result "A" product_a10 [first_time]))
  ∧ detect_changes "A" product_a8
      (previous_state (new_monitor (Some crowded_log)) !! "A")
    = [first_time].
Proof.
  split; [reflexivity |]. split; [reflexivity |].
  apply (stale_history_is_first_time crowded_log "A" product_a8).
  reflexivity.
Defined.
